(** * rover_tele_op: the keyboard teleoperation node

    A shallow embedding of [src/rover_tele_op/tele_op_keyboard.py].

    - Python [float]s are IEEE 754 binary64 values: they are Rocq's primitive
      [float]s, with the same rounding (to nearest, ties to even).
    - Python [int]s are unbounded: [Z].
    - The terminal stream and the keys read from it are [string]s of 8-bit
      characters.
    - [Teleop] is the node object; the handler of a key and the timer callback
      are state transformers on it, the first one in a small state-and-exception
      monad, since indexing and [int()] can raise.
    - [World] adds what [main] acts on besides the node: the terminal stream,
      the terminal attributes, the clock and the executor.
    - The timer callback runs on the executor's thread.  A callback and a turn
      of the loop of [main] are each taken as one step; the steps of the two
      threads interleave in any order ([step], [reachable]).
    - The status lines printed on the console are not modelled, and the
      messages are the values handed to the publishers; the motor message
      holds int32 entries and is refused when the array has another one.
    - [Tty] is the key decoder on a terminal whose reads can also raise or
      wait; the decoder of [World] is its case of a stream that ends with
      the end of a file. *)

From Stdlib Require Import ZArith QArith Qabs List String Ascii Bool Lia Floats.
From Stdlib Require Import Permutation.
Import ListNotations.

Set Warnings "-inexact-float".

Close Scope Q_scope.
Local Open Scope string_scope.

(** ** Constants of the module *)

Definition GRANULARITY : Z := 10.
Definition TIMEOUT : float := 5.0%float.

(** ** The fragment of Python the program uses *)

Module Py.

Inductive exn : Type :=
| ValueError
| IndexError.

(** [str.lower()] and [str.upper()].  On the 8-bit characters of the model
    only the ASCII letters have another case that the program can tell apart:
    the results are only compared with ASCII letters, and no other character
    is mapped to one of them by Python either. *)
Definition is_upper (c : ascii) : bool :=
  ((65 <=? nat_of_ascii c) && (nat_of_ascii c <=? 90))%nat.
Definition is_lower (c : ascii) : bool :=
  ((97 <=? nat_of_ascii c) && (nat_of_ascii c <=? 122))%nat.
Definition lower_char (c : ascii) : ascii :=
  if is_upper c then ascii_of_nat (nat_of_ascii c + 32) else c.
Definition upper_char (c : ascii) : ascii :=
  if is_lower c then ascii_of_nat (nat_of_ascii c - 32) else c.

Fixpoint map_str (f : ascii -> ascii) (s : string) : string :=
  match s with
  | EmptyString => EmptyString
  | String c r => String (f c) (map_str f r)
  end.

Definition lower : string -> string := map_str lower_char.
Definition upper : string -> string := map_str upper_char.

(** [sub in s] on strings is the substring test; [s.index(sub)] is the
    offset of the first occurrence and raises [ValueError] without one. *)
Definition contains (sub s : string) : bool :=
  match String.index 0 sub s with
  | Some _ => true
  | None => false
  end.

Definition str_index (s sub : string) : exn + Z :=
  match String.index 0 sub s with
  | Some i => inr (Z.of_nat i)
  | None => inl ValueError
  end.

(** [int(s)] for a string of decimal digits.  The empty string and a string
    with another character raise [ValueError].  (Python's [int] also accepts
    signs, blanks and underscores; the only call of the program passes a
    substring of ["12345"].) *)
Definition digit_val (c : ascii) : option Z :=
  let n := nat_of_ascii c in
  if ((48 <=? n) && (n <=? 57))%nat then Some (Z.of_nat (n - 48)) else None.

Fixpoint int_digits (acc : Z) (s : string) : option Z :=
  match s with
  | EmptyString => Some acc
  | String c r =>
      match digit_val c with
      | Some d => int_digits (10 * acc + d) r
      | None => None
      end
  end.

Definition int (s : string) : exn + Z :=
  match s with
  | EmptyString => inl ValueError
  | _ => match int_digits 0 s with
         | Some n => inr n
         | None => inl ValueError
         end
  end.

(** List subscripts: an index [i] with [-len <= i < 0] counts from the end,
    and an index outside [-len, len) raises [IndexError]. *)
Definition norm_index (len : nat) (i : Z) : option nat :=
  let l := Z.of_nat len in
  if ((0 <=? i) && (i <? l))%Z then Some (Z.to_nat i)
  else if ((- l <=? i) && (i <? 0))%Z then Some (Z.to_nat (i + l))
  else None.

Fixpoint set_nth {A : Type} (n : nat) (v : A) (l : list A) : list A :=
  match l, n with
  | [], _ => []
  | _ :: r, O => v :: r
  | a :: r, S n' => a :: set_nth n' v r
  end.

Definition getitem {A : Type} (l : list A) (i : Z) : exn + A :=
  match norm_index (List.length l) i with
  | Some n => match nth_error l n with
              | Some a => inr a
              | None => inl IndexError
              end
  | None => inl IndexError
  end.

Definition setitem {A : Type} (l : list A) (i : Z) (v : A) : exn + list A :=
  match norm_index (List.length l) i with
  | Some n => inr (set_nth n v l)
  | None => inl IndexError
  end.

(** [sys.stdin.read(n)]: at most [n] characters, fewer (possibly none) when
    the stream ends first. *)
Fixpoint take (n : nat) (s : string) : string :=
  match n, s with
  | S n', String c r => String c (take n' r)
  | _, _ => EmptyString
  end.

Fixpoint drop (n : nat) (s : string) : string :=
  match n, s with
  | S n', String _ r => drop n' r
  | _, _ => s
  end.

End Py.

(** ** The messages published on the bus *)

Record Vector3 : Type := mkVector3 { vx : float; vy : float; vz : float }.

(** [Twist()] is created with every component at [0.0]. *)
Record Twist : Type := mkTwist { linear : Vector3; angular : Vector3 }.

Record Int32MultiArray : Type := mkInt32MultiArray { data : list Z }.

(** Modelled from the spec: the message class [std_msgs.msg.Int32MultiArray]
    is not in the repository; the spec gives its field as a sequence of int32.
    [Int32MultiArray_data value] is what [msg.data = value] makes of a fresh
    message: the class takes the list when every entry is an int32, and
    refuses it with an exception otherwise, which is [None] here. *)
Definition int32 (v : Z) : bool :=
  ((-2147483648 <=? v) && (v <=? 2147483647))%Z.

Definition Int32MultiArray_data (value : list Z) : option Int32MultiArray :=
  if forallb int32 value then Some {| data := value |} else None.

(** ** The node *)

Record Teleop : Type := mkTeleop {
  speed : float;
  motors : list Z;
  x : float;
  th : float;
  last_keypress_time : float
}.

Definition set_speed (v : float) (s : Teleop) : Teleop :=
  mkTeleop v (motors s) (x s) (th s) (last_keypress_time s).
Definition set_motors (v : list Z) (s : Teleop) : Teleop :=
  mkTeleop (speed s) v (x s) (th s) (last_keypress_time s).
Definition set_x (v : float) (s : Teleop) : Teleop :=
  mkTeleop (speed s) (motors s) v (th s) (last_keypress_time s).
Definition set_th (v : float) (s : Teleop) : Teleop :=
  mkTeleop (speed s) (motors s) (x s) v (last_keypress_time s).
Definition set_last_keypress_time (v : float) (s : Teleop) : Teleop :=
  mkTeleop (speed s) (motors s) (x s) (th s) v.

(** [Teleop.__init__]; [now] is what [time.time()] returns there. *)
Definition init (now : float) : Teleop :=
  {| speed := 0.35%float;
     motors := repeat 0%Z 7;
     x := 0.0%float;
     th := 0.0%float;
     last_keypress_time := now |}.

(** The test of the watchdog: [current_time - self.last_keypress_time > TIMEOUT]. *)
Definition timed_out (self : Teleop) (current_time : float) : bool :=
  (TIMEOUT <? current_time - last_keypress_time self)%float.

(** [Teleop.timer_callback]: the node after the call, the Twist it publishes
    on [cmd_vel] and the message it publishes on [/joint_states].  The second
    is [None] when the message class refuses the motor array: the callback
    then ends with the exception of the class, the Twist being published
    already.  (What the executor does with that exception is not modelled.) *)
Definition timer_callback (self : Teleop) (current_time : float)
  : Teleop * (Twist * option Int32MultiArray) :=
  let self :=
    if timed_out self current_time
    then set_th 0.0%float (set_x 0.0%float self)
    else self in
  let twist :=
    {| linear := mkVector3 (x self * speed self)%float 0.0%float 0.0%float;
       angular := mkVector3 0.0%float 0.0%float (th self * speed self)%float |} in
  let motor_msg := Int32MultiArray_data (motors self) in
  (self, (twist, motor_msg)).

(** ** Statements that act on the node and may raise *)

Definition Exec (A : Type) : Type := Teleop -> Teleop * (Py.exn + A).

Definition ret {A : Type} (a : A) : Exec A := fun s => (s, inr a).
Definition raise {A : Type} (e : Py.exn) : Exec A := fun s => (s, inl e).
Definition bind {A B : Type} (m : Exec A) (k : A -> Exec B) : Exec B :=
  fun s =>
    match m s with
    | (s', inr a) => k a s'
    | (s', inl e) => (s', inl e)
    end.
Definition lift {A : Type} (r : Py.exn + A) : Exec A := fun s => (s, r).
Definition get {A : Type} (f : Teleop -> A) : Exec A := fun s => (s, inr (f s)).
Definition modify (f : Teleop -> Teleop) : Exec unit := fun s => (f s, inr tt).

Declare Scope exec_scope.
Delimit Scope exec_scope with exec.
Notation "v <- m ;; k" := (bind m (fun v => k))
  (at level 100, m at next level, right associativity) : exec_scope.
Notation "m ;; k" := (bind m (fun _ => k))
  (at level 100, right associativity) : exec_scope.

Local Open Scope exec_scope.

(** [teleop.motors[idx] += delta]: the entry is read, then written back. *)
Definition motors_iadd (idx delta : Z) : Exec unit :=
  ms <- get motors ;;
  v <- lift (Py.getitem ms idx) ;;
  ms' <- lift (Py.setitem ms idx (v + delta)%Z) ;;
  modify (set_motors ms').

(** ** The keys *)

Definition ESC : ascii := "027"%char.
Definition KEY_UP : string := String ESC "[A".
Definition KEY_DOWN : string := String ESC "[B".
Definition KEY_RIGHT : string := String ESC "[C".
Definition KEY_LEFT : string := String ESC "[D".
Definition CTRL_C : string := String "003"%char EmptyString.

(** What the body of [while True] does next. *)
Inductive control : Type :=
| Next
| Stop.

(** The [if]/[elif] chain of [main], first match first. *)
Definition dispatch (key : string) : Exec control :=
  if key =? KEY_UP then
    modify (set_x 1.0%float) ;; modify (set_th 0.0%float) ;; ret Next
  else if key =? KEY_DOWN then
    modify (set_x (-1.0)%float) ;; modify (set_th 0.0%float) ;; ret Next
  else if key =? KEY_RIGHT then
    modify (set_th (-1.0)%float) ;; modify (set_x 0.0%float) ;; ret Next
  else if key =? KEY_LEFT then
    modify (set_th 1.0%float) ;; modify (set_x 0.0%float) ;; ret Next
  else if Py.lower key =? "s" then
    modify (set_x 0.0%float) ;; modify (set_th 0.0%float) ;; ret Next
  else if Py.lower key =? "o" then
    modify (fun s => set_speed (speed s * 1.1)%float s) ;; ret Next
  else if Py.lower key =? "p" then
    modify (fun s => set_speed (speed s * 0.9)%float s) ;; ret Next
  else if Py.contains key "12345" then
    n <- lift (Py.int key) ;;
    motors_iadd (n - 1)%Z GRANULARITY ;; ret Next
  else if key =? "6" then
    motors_iadd 5 GRANULARITY ;; motors_iadd 6 GRANULARITY ;; ret Next
  else if key =? "7" then
    motors_iadd 5 GRANULARITY ;; motors_iadd 6 (- GRANULARITY)%Z ;; ret Next
  else if Py.contains (Py.upper key) "QWERT" then
    idx <- lift (Py.str_index "QWERT" (Py.upper key)) ;;
    motors_iadd idx (- GRANULARITY)%Z ;; ret Next
  else if Py.upper key =? "Y" then
    motors_iadd 5 (- GRANULARITY)%Z ;; motors_iadd 6 (- GRANULARITY)%Z ;; ret Next
  else if Py.upper key =? "U" then
    motors_iadd 5 (- GRANULARITY)%Z ;; motors_iadd 6 GRANULARITY ;; ret Next
  else if key =? CTRL_C then
    ret Stop
  else
    ret Next.

(** Whether one of the conditions of the chain holds for [key]; a key for
    which none does falls through the chain. *)
Definition key_matches (key : string) : bool :=
  (key =? KEY_UP) || (key =? KEY_DOWN) || (key =? KEY_RIGHT) || (key =? KEY_LEFT)
  || (Py.lower key =? "s") || (Py.lower key =? "o") || (Py.lower key =? "p")
  || Py.contains key "12345" || (key =? "6") || (key =? "7")
  || Py.contains (Py.upper key) "QWERT"
  || (Py.upper key =? "Y") || (Py.upper key =? "U") || (key =? CTRL_C).

(** One turn of the loop once [getKey] has returned [key]: the time of the
    keypress is recorded, then the key is dispatched.  [now] is what
    [time.time()] returns. *)
Definition handle_key (now : float) (key : string) : Exec control :=
  modify (set_last_keypress_time now) ;; dispatch key.

(** The handler over a sequence of keys, each with the time it is read at;
    it stops at the first key that breaks out of the loop or raises. *)
Fixpoint handle_keys (keys : list (float * string)) : Exec control :=
  match keys with
  | [] => ret Next
  | (now, key) :: rest =>
      c <- handle_key now key ;;
      match c with
      | Next => handle_keys rest
      | Stop => ret Stop
      end
  end.

(** ** The terminal, the executor and [main] *)

(** The attributes of the terminal, as far as the program changes them:
    [tty.setraw] installs raw mode, [termios.tcsetattr] writes back what
    [termios.tcgetattr] returned at startup. *)
Inductive tty_mode : Type :=
| Cooked
| Raw.

Record World : Type := mkWorld {
  stdin : string;        (* the characters of the terminal not read yet *)
  tty : tty_mode;
  time_calls : nat;      (* how many times [time.time()] was called *)
  spinning : bool;       (* the executor runs: the timer callback fires *)
  teleop : Teleop
}.

Definition set_stdin (v : string) (w : World) : World :=
  mkWorld v (tty w) (time_calls w) (spinning w) (teleop w).
Definition set_tty (v : tty_mode) (w : World) : World :=
  mkWorld (stdin w) v (time_calls w) (spinning w) (teleop w).
Definition set_time_calls (v : nat) (w : World) : World :=
  mkWorld (stdin w) (tty w) v (spinning w) (teleop w).
Definition set_spinning (v : bool) (w : World) : World :=
  mkWorld (stdin w) (tty w) (time_calls w) v (teleop w).
Definition set_teleop (v : Teleop) (w : World) : World :=
  mkWorld (stdin w) (tty w) (time_calls w) (spinning w) v.

(** [sys.stdin.read(n)] *)
Definition stdin_read (n : nat) (w : World) : string * World :=
  (Py.take n (stdin w), set_stdin (Py.drop n (stdin w)) w).

(** [getKey]: raw mode, one character, two more after an ESC, and the
    attributes [settings] written back. *)
Definition getKey (settings : tty_mode) (w : World) : string * World :=
  let w := set_tty Raw w in
  let (key, w) := stdin_read 1 w in
  let (key, w) :=
    if key =? String ESC EmptyString
    then let (more, w) := stdin_read 2 w in (key ++ more, w)
    else (key, w) in
  (key, set_tty settings w).

(** How the loop of [main] is left. *)
Inductive exit : Type :=
| Broke
| Raised (e : Py.exn).

(** The [finally] block of [main]: the drive intent is zeroed, the executor is
    shut down (after the grace delay) and the terminal gets its attributes back. *)
Definition finally (settings : tty_mode) (w : World) : World :=
  let w := set_teleop (set_th 0.0%float (set_x 0.0%float (teleop w))) w in
  let w := set_spinning false w in
  set_tty settings w.

Section Main.

(** [clock n] is what the call number [n] of [time.time()] returns. *)
Variable clock : nat -> float.

Definition time_time (w : World) : float * World :=
  (clock (time_calls w), set_time_calls (S (time_calls w)) w).

(** [while True: ...], for at most [fuel] keys. *)
Fixpoint loop (fuel : nat) (settings : tty_mode) (w : World) : option (exit * World) :=
  match fuel with
  | O => None
  | S fuel' =>
      let (key, w) := getKey settings w in
      let (now, w) := time_time w in
      match handle_key now key (teleop w) with
      | (t, inr Next) => loop fuel' settings (set_teleop t w)
      | (t, inr Stop) => Some (Broke, set_teleop t w)
      | (t, inl e) => Some (Raised e, set_teleop t w)
      end
  end.

(** [main], started on a terminal in mode [tty0] with the characters
    [stdin0] to come.  Every key takes at least one character off the stream
    and the key read at its end raises, so one more turn than there are
    characters is enough. *)
Definition main (stdin0 : string) (tty0 : tty_mode) : option (exit * World) :=
  let settings := tty0 in
  let w := mkWorld stdin0 tty0 1%nat true (init (clock 0%nat)) in
  match loop (S (String.length stdin0)) settings w with
  | Some (e, w) => Some (e, finally settings w)
  | None => None
  end.

End Main.

(** ** The states of the node

    The node is written by the loop of [main], by the timer callback (which
    the executor runs on a thread of its own) and by the [finally] block.  A
    step is one whole turn of the loop, one whole callback, or the two
    assignments of [finally]. *)
Inductive step : Teleop -> Teleop -> Prop :=
| step_key (now : float) (key : string) (s : Teleop) :
    step s (fst (handle_key now key s))
| step_tick (now : float) (s : Teleop) :
    step s (fst (timer_callback s now))
| step_finally (s : Teleop) :
    step s (set_th 0.0%float (set_x 0.0%float s)).

(** The nodes the program goes through, from [Teleop()] on. *)
Inductive reachable : Teleop -> Prop :=
| reach_init (now : float) : reachable (init now)
| reach_step (s s' : Teleop) : reachable s -> step s s' -> reachable s'.

(** ** Predicates and inputs of the statements *)

Local Open Scope float_scope.

(** The node after 'o' was pressed 7459 times and then the Up arrow: the speed
    has left the finite range of the floats. *)
Definition overflowed : Teleop :=
  fst (handle_keys (repeat (1.0, "o"%string) (Z.to_nat 7459) ++ [(1.0, KEY_UP)])
                   (init 0.0)).

(** The values the drive intent takes. *)
Definition intent_value (v : float) : Prop := v = (-1.0) \/ v = 0.0 \/ v = 1.0.

(** The node [s'] comes from [s] by writing intent values to x and th and by
    writing entries of the motor array and the speed; the recorded time is
    kept. *)
Record key_effect (s s' : Teleop) : Prop := mk_key_effect {
  effect_last : last_keypress_time s' = last_keypress_time s;
  effect_length : List.length (motors s') = List.length (motors s);
  effect_x : x s' = x s \/ intent_value (x s');
  effect_th : th s' = th s \/ intent_value (th s')
}.

(** What holds of every node the program goes through. *)
Definition node_ok (s : Teleop) : Prop :=
  intent_value (x s) /\ intent_value (th s) /\ List.length (motors s) = 7%nat.

(** The keys that move the motors 5 and 6 together, with what each adds to
    the two entries. *)
Definition coupled_keys : list (string * (Z * Z)) :=
  [("6", (10, 10)); ("7", (10, -10));
   ("y", (-10, -10)); ("Y", (-10, -10));
   ("u", (-10, 10)); ("U", (-10, 10))]%Z.

(** [b ** n] for a float [b] and a natural [n], by repeated multiplication;
    at 1.1 and 10 this is the float 2.5937424601000023 that Python computes
    for [1.1 ** 10]. *)
Fixpoint fpow (b : float) (n : nat) : float :=
  match n with
  | O => 1.0
  | S n' => fpow b n' * b
  end.

(** The rational number a finite float stands for. *)
Definition exact_value (v : float) : option Q :=
  match Prim2SF v with
  | S754_zero _ => Some 0%Q
  | S754_finite sg m e =>
      Some ((if sg then Qopp else (fun q => q)) (inject_Z (Zpos m) * Qpower 2 e)%Q)
  | S754_infinity _ | S754_nan => None
  end.

(** The speed after 'o' was pressed [n] times on a fresh node. *)
Definition speed_after_o (n : nat) : float :=
  speed (fst (handle_keys (repeat (1.0, "o"%string) n) (init 0.0))).


(** What the [finally] block leaves behind. *)
Definition shut_down (settings : tty_mode) (w : World) : Prop :=
  x (teleop w) = 0.0 /\ th (teleop w) = 0.0
  /\ spinning w = false /\ tty w = settings.

(** ** The motor keys as offsets *)

(** The motor array with a list of offsets added entry by entry. *)
Fixpoint add_offsets (ms d : list Z) : list Z :=
  match ms, d with
  | m :: ms', v :: d' => (m + v)%Z :: add_offsets ms' d'
  | _, _ => ms
  end.

(** The keys that move motors, each with what it adds to the seven entries. *)
Definition motor_keys : list (string * list Z) :=
  [("1", [10; 0; 0; 0; 0; 0; 0]); ("2", [0; 10; 0; 0; 0; 0; 0]);
   ("3", [0; 0; 10; 0; 0; 0; 0]); ("4", [0; 0; 0; 10; 0; 0; 0]);
   ("5", [0; 0; 0; 0; 10; 0; 0]); ("6", [0; 0; 0; 0; 0; 10; 10]);
   ("7", [0; 0; 0; 0; 0; 10; -10]);
   ("q", [-10; 0; 0; 0; 0; 0; 0]); ("Q", [-10; 0; 0; 0; 0; 0; 0]);
   ("w", [0; -10; 0; 0; 0; 0; 0]); ("W", [0; -10; 0; 0; 0; 0; 0]);
   ("e", [0; 0; -10; 0; 0; 0; 0]); ("E", [0; 0; -10; 0; 0; 0; 0]);
   ("r", [0; 0; 0; -10; 0; 0; 0]); ("R", [0; 0; 0; -10; 0; 0; 0]);
   ("t", [0; 0; 0; 0; -10; 0; 0]); ("T", [0; 0; 0; 0; -10; 0; 0]);
   ("y", [0; 0; 0; 0; 0; -10; -10]); ("Y", [0; 0; 0; 0; 0; -10; -10]);
   ("u", [0; 0; 0; 0; 0; -10; 10]); ("U", [0; 0; 0; 0; 0; -10; 10])]%Z.

(** Whether [key] is one of the motor keys, and the offsets it adds. *)
Definition is_motor_key (key : string) : bool :=
  existsb (fun kd => String.eqb (fst kd) key) motor_keys.

Definition offsets_of (key : string) : list Z :=
  match find (fun kd => String.eqb (fst kd) key) motor_keys with
  | Some kd => snd kd
  | None => []
  end.

(** The offsets of a sequence of keys, each with the time it is read at. *)
Definition offsets_of_keys (keys : list (float * string)) : list (list Z) :=
  map (fun tk => offsets_of (snd tk)) keys.

(** The time of the last key of a sequence, [t] for the empty one. *)
Definition last_time (keys : list (float * string)) (t : float) : float :=
  fold_left (fun _ tk => fst tk) keys t.

(** What the code keeps of the motor array: seven entries, each a multiple of
    10, those of the motors 5 and 6 adding up to a multiple of 20. *)
Definition motors_inv (ms : list Z) : Prop :=
  List.length ms = 7%nat
  /\ Forall (fun m => m mod 10 = 0)%Z ms
  /\ ((nth 5 ms 0 + nth 6 ms 0) mod 20 = 0)%Z.

(** ** Statements that raise *)

(** Whether running a statement ended in an exception. *)
Definition raises {A : Type} (r : Teleop * (Py.exn + A)) : bool :=
  match snd r with
  | inl _ => true
  | inr _ => false
  end.

(** ** The sign of a float *)

(** [v] is a zero, a finite number or an infinity of sign [sg] ([true] for
    negative), and not a NaN. *)
Definition signed (sg : bool) (v : spec_float) : Prop :=
  match v with
  | S754_zero s | S754_infinity s | S754_finite s _ _ => s = sg
  | S754_nan => False
  end.

(** The node after '1' was pressed 214748365 times: the first motor entry has
    left the range of int32. *)
Definition motor_overflowed : Teleop :=
  fst (handle_keys (repeat (1.0, "1"%string) (Z.to_nat 214748365)) (init 0.0)).

(** ** The reads of the terminal with their failures

    [getKey] again, on a terminal whose reads can fail.  [chars] are the
    characters that the reads of [sys.stdin] obtain, one after the other, and
    [at_end] is what a read meets when it needs more than these: the end of
    the file, an exception, or nothing, in which case it does not return.
    The model [getKey] above is the case [Eof] of this one
    ([getKey_eof_agrees]). *)
Module Tty.

(** The exceptions of [sys.stdin.read]: the terminal hung up, or the bytes
    that follow do not decode. *)
Inductive io_exn : Type :=
| OSError
| UnicodeDecodeError.

Inductive stream_end : Type :=
| Eof
| Fails (e : io_exn)
| Waits.

Record Terminal : Type := mkTerminal {
  chars : string;
  at_end : stream_end;
  attrs : tty_mode
}.

Definition set_chars (v : string) (t : Terminal) : Terminal :=
  mkTerminal v (at_end t) (attrs t).
Definition set_attrs (v : tty_mode) (t : Terminal) : Terminal :=
  mkTerminal (chars t) (at_end t) v.

(** How a call on the terminal ends. *)
Inductive outcome (A : Type) : Type :=
| Returns (a : A) (t : Terminal)
| Raises (e : io_exn) (t : Terminal)
| Blocks.

Arguments Returns {A} a t.
Arguments Raises {A} e t.
Arguments Blocks {A}.

(** [sys.stdin.read(n)]: [n] characters when there are as many; otherwise
    what the end of the stream makes of the call. *)
Definition read (n : nat) (t : Terminal) : outcome string :=
  if (n <=? String.length (chars t))%nat
  then Returns (Py.take n (chars t)) (set_chars (Py.drop n (chars t)) t)
  else match at_end t with
       | Eof => Returns (chars t) (set_chars EmptyString t)
       | Fails e => Raises e (set_chars EmptyString t)
       | Waits => Blocks
       end.

(** [getKey]: an exception of a read leaves the function at once, before the
    attributes are written back. *)
Definition getKey (settings : tty_mode) (t : Terminal) : outcome string :=
  let t := set_attrs Raw t in
  match read 1 t with
  | Returns key t =>
      if (key =? String ESC EmptyString)%string
      then match read 2 t with
           | Returns more t => Returns (key ++ more)%string (set_attrs settings t)
           | Raises e t => Raises e t
           | Blocks => Blocks
           end
      else Returns key (set_attrs settings t)
  | Raises e t => Raises e t
  | Blocks => Blocks
  end.


End Tty.


(** * Properties *)

(** ** The model at work *)

Example press_1_then_q :
  motors (fst (handle_keys [(1.0%float, "1"); (2.0%float, "q")] (init 0.0%float)))
  = [0; 0; 0; 0; 0; 0; 0]%Z.
Proof. reflexivity. Qed.

Example press_3_W_6_u :
  handle_keys [(1.0%float, "3"); (2.0%float, "W"); (3.0%float, "6"); (4.0%float, "u")]
              (init 0.0%float)
  = (mkTeleop 0.35%float [0; -10; 10; 0; 0; 0; 20]%Z 0.0%float 0.0%float 4.0%float,
     inr Next).
Proof. vm_compute. reflexivity. Qed.

Example empty_key_raises :
  handle_key 1.0%float "" (init 0.0%float)
  = (set_last_keypress_time 1.0%float (init 0.0%float), inl Py.ValueError).
Proof. reflexivity. Qed.

Example main_up_then_ctrl_c :
  main (fun n => PrimFloat.of_uint63 (Uint63.of_Z (Z.of_nat n)))
       (KEY_UP ++ "o" ++ CTRL_C ++ "ignored") Cooked
  = Some (Broke,
          mkWorld "ignored" Cooked 4 false
            (mkTeleop (0.35 * 1.1)%float [0; 0; 0; 0; 0; 0; 0]%Z 0.0%float 0.0%float 3.0%float)).
Proof. vm_compute. reflexivity. Qed.

(** ** Floating-point facts the proofs use *)

Lemma SFeqb_refl_finite (sg : bool) (m : positive) (e : Z) :
  SFeqb (S754_finite sg m e) (S754_finite sg m e) = true.
Proof.
  unfold SFeqb, SFcompare.
  rewrite Z.compare_refl.
  change (Pos.compare_cont Eq m m) with (Pos.compare m m).
  rewrite Pos.compare_refl. destruct sg; reflexivity.
Qed.

(** [0.0 * v == 0] holds exactly for the finite [v]: the product with an
    infinity or a NaN is a NaN, which equals nothing. *)
Lemma zero_mul_eqb (v : float) : (0.0 * v =? 0.0) = is_finite v.
Proof.
  unfold is_finite, is_nan, is_infinity.
  rewrite !eqb_spec, abs_spec, mul_spec.
  change (Prim2SF infinity) with (S754_infinity false).
  change (Prim2SF 0.0) with (S754_zero false).
  destruct (Prim2SF v) as [sg | sg | | sg m e]; try reflexivity.
  - destruct sg; reflexivity.
  - rewrite SFeqb_refl_finite. reflexivity.
Qed.

Lemma float_neq (a b : float) : (a =? b) = false -> is_nan a = false -> a <> b.
Proof.
  unfold is_nan. intros Hab Ha E. subst b.
  rewrite Hab in Ha. discriminate Ha.
Qed.

(** ** The timer callback *)

Lemma timer_callback_node (s : Teleop) (now : float) :
  fst (timer_callback s now)
  = if timed_out s now then set_th 0.0 (set_x 0.0 s) else s.
Proof. unfold timer_callback. destruct (timed_out s now); reflexivity. Qed.

Lemma handle_keys_reachable (keys : list (float * string)) :
  forall s, reachable s -> reachable (fst (handle_keys keys s)).
Proof.
  induction keys as [| [now key] rest IH]; intros s Hs.
  - exact Hs.
  - cbn [handle_keys]. unfold bind.
    pose proof (reach_step _ _ Hs (step_key now key s)) as Hk.
    destruct (handle_key now key s) as [s' [e | [|]]]; cbn [fst] in *.
    + exact Hk.
    + apply IH. exact Hk.
    + exact Hk.
Qed.

Example overflowed_speed : speed overflowed = infinity /\ x overflowed = 1.0.
Proof. vm_compute. split; reflexivity. Qed.

(** C1, as stated, fails: in a state the program reaches, with the last
    keypress more than 5 seconds old, the tick publishes a velocity whose
    fields are NaN, which do not compare equal to 0. *)
Lemma watchdog_publishes_nan_counterexample :
  reachable overflowed
  /\ timed_out overflowed 7.0 = true
  /\ (vx (linear (fst (snd (timer_callback overflowed 7.0)))) =? 0.0) = false
  /\ (vz (angular (fst (snd (timer_callback overflowed 7.0)))) =? 0.0) = false.
Proof.
  split.
  - unfold overflowed. apply handle_keys_reachable. constructor.
  - vm_compute. repeat split; reflexivity.
Qed.

(** C1 (amended): on a tick at which more than 5.0 seconds have passed since
    the last recorded keypress, the drive intent is forced to x = 0.0 and
    th = 0.0 whatever it was before, and the fields linear.x and angular.z of
    the velocity message published on that tick compare equal to 0 exactly
    when the speed is a finite float; in particular they are 0 for every
    finite speed. *)
Theorem watchdog_zeroes_velocity (s : Teleop) (now : float) :
  timed_out s now = true ->
  x (fst (timer_callback s now)) = 0.0
  /\ th (fst (timer_callback s now)) = 0.0
  /\ (vx (linear (fst (snd (timer_callback s now)))) =? 0.0) = is_finite (speed s)
  /\ (vz (angular (fst (snd (timer_callback s now)))) =? 0.0) = is_finite (speed s)
  /\ (is_finite (speed s) = true ->
      (vx (linear (fst (snd (timer_callback s now)))) =? 0.0) = true
      /\ (vz (angular (fst (snd (timer_callback s now)))) =? 0.0) = true).
Proof.
  intro Hout. unfold timer_callback. rewrite Hout. cbn.
  rewrite !zero_mul_eqb.
  repeat split; try reflexivity; assumption.
Qed.

Lemma watchdog_zeroes_velocity_witness :
  timed_out (mkTeleop 0.35 [0; 0; 10; 0; 0; 0; 0]%Z 1.0 0.0 100.0) 105.5 = true
  /\ (vx (linear (fst (snd (timer_callback
        (mkTeleop 0.35 [0; 0; 10; 0; 0; 0; 0]%Z 1.0 0.0 100.0) 105.5)))) =? 0.0) = true.
Proof.
  split.
  - vm_compute. reflexivity.
  - apply (watchdog_zeroes_velocity
             (mkTeleop 0.35 [0; 0; 10; 0; 0; 0; 0]%Z 1.0 0.0 100.0) 105.5);
      vm_compute; reflexivity.
Defined.

(** C3: a tick of the timer leaves the motor offsets, the speed and the time
    of the last keypress as they are, whether the watchdog fires or not; when
    it fires the node differs from the one before in x and th only, both then
    0.0, and when it does not fire the node is unchanged. *)
Theorem timer_callback_frame (s : Teleop) (now : float) :
  motors (fst (timer_callback s now)) = motors s
  /\ speed (fst (timer_callback s now)) = speed s
  /\ last_keypress_time (fst (timer_callback s now)) = last_keypress_time s
  /\ fst (timer_callback s now)
     = (if timed_out s now
        then mkTeleop (speed s) (motors s) 0.0 0.0 (last_keypress_time s)
        else s).
Proof.
  rewrite timer_callback_node.
  destruct (timed_out s now); repeat split; reflexivity.
Qed.

(** ** What the handler of a key may change *)

Lemma set_nth_length {A : Type} (n : nat) (v : A) (l : list A) :
  List.length (Py.set_nth n v l) = List.length l.
Proof.
  revert n. induction l as [| a r IH]; intros [| n]; cbn; try reflexivity.
  now rewrite IH.
Qed.

Lemma motors_iadd_cases (idx d : Z) (s : Teleop) :
  (exists ms', motors_iadd idx d s = (set_motors ms' s, inr tt)
               /\ List.length ms' = List.length (motors s))
  \/ motors_iadd idx d s = (s, inl Py.IndexError).
Proof.
  unfold motors_iadd, bind, get, lift, modify, Py.getitem, Py.setitem.
  destruct (Py.norm_index (List.length (motors s)) idx) as [n |]; [| now right].
  destruct (nth_error (motors s) n) as [v |]; [| now right].
  left. eexists. split; [reflexivity | apply set_nth_length].
Qed.

Ltac run_exec := unfold bind, ret, raise, lift, modify, get; cbv beta iota.

Ltac step_iadd :=
  match goal with
  | |- context [motors_iadd ?i ?d ?s] =>
      let ms := fresh "ms" in
      let E := fresh "E" in
      let L := fresh "L" in
      destruct (motors_iadd_cases i d s) as [(ms & E & L) | E];
      rewrite E; cbv beta iota;
      try (cbn [motors set_motors set_x set_th set_speed set_last_keypress_time] in L)
  end.

Ltac step_lift :=
  match goal with
  | |- context [match ?r with inl _ => _ | inr _ => _ end] =>
      match r with
      | Py.int _ => destruct r
      | Py.str_index _ _ => destruct r
      end; cbv beta iota
  end.

Ltac dispatch_cases :=
  unfold dispatch;
  repeat match goal with
         | |- context [if ?c then _ else _] => destruct c eqn:?
         end;
  run_exec; try step_lift; repeat step_iadd.

Lemma dispatch_effect (key : string) (s : Teleop) :
  key_effect s (fst (dispatch key s)).
Proof.
  dispatch_cases;
    (split; cbn; unfold intent_value; solve [auto 6 | congruence]).
Qed.

Lemma handle_key_eq (now : float) (key : string) (s : Teleop) :
  handle_key now key s = dispatch key (set_last_keypress_time now s).
Proof. reflexivity. Qed.

Lemma intent_value_bounds (v : float) :
  intent_value v -> (-1.0 <=? v) = true /\ (v <=? 1.0) = true.
Proof. intros [-> | [-> | ->]]; split; reflexivity. Qed.

(** ** The reachable states of the node *)

Lemma init_ok (now : float) : node_ok (init now).
Proof. unfold node_ok, intent_value. cbn. auto. Qed.

Lemma step_writes (s s' : Teleop) :
  step s s' ->
  (x s' = x s \/ intent_value (x s'))
  /\ (th s' = th s \/ intent_value (th s'))
  /\ List.length (motors s') = List.length (motors s).
Proof.
  intros [now key s0 | now s0 | s0].
  - rewrite handle_key_eq.
    destruct (dispatch_effect key (set_last_keypress_time now s0)) as [_ Hl Hx Ht].
    auto.
  - rewrite timer_callback_node. unfold intent_value.
    destruct (timed_out s0 now); cbn; repeat split; auto 6.
  - unfold intent_value. cbn. repeat split; auto 6.
Qed.

Lemma step_ok (s s' : Teleop) : step s s' -> node_ok s -> node_ok s'.
Proof.
  intros Hstep (Hx & Ht & Hl).
  destruct (step_writes s s' Hstep) as ([Ex | Ex] & [Et | Et] & El);
    unfold node_ok; rewrite El; try rewrite Ex; try rewrite Et; auto.
Qed.

Lemma reachable_ok (s : Teleop) : reachable s -> node_ok s.
Proof.
  induction 1 as [now | s s' _ IH Hstep].
  - apply init_ok.
  - exact (step_ok s s' Hstep IH).
Qed.

(** C7: in every reachable state x and th are each one of -1.0, 0.0 and 1.0,
    hence in the interval [-1, 1]; they start at 0.0, and every step (a key,
    a tick of the timer, the shutdown path) either leaves a field as it is or
    assigns it one of these three values. *)
Theorem drive_intent_bounded (s : Teleop) :
  reachable s ->
  (intent_value (x s) /\ intent_value (th s))
  /\ ((-1.0 <=? x s) = true /\ (x s <=? 1.0) = true)
  /\ ((-1.0 <=? th s) = true /\ (th s <=? 1.0) = true)
  /\ (forall now, x (init now) = 0.0 /\ th (init now) = 0.0)
  /\ (forall s', step s s' ->
        (x s' = x s \/ intent_value (x s')) /\ (th s' = th s \/ intent_value (th s'))).
Proof.
  intro Hr. destruct (reachable_ok s Hr) as (Hx & Ht & _).
  split; [split; assumption |].
  split; [now apply intent_value_bounds |].
  split; [now apply intent_value_bounds |].
  split; [intro now; split; reflexivity |].
  intros s' Hstep.
  destruct (step_writes s s' Hstep) as (Wx & Wt & _).
  split; assumption.
Qed.

Lemma drive_intent_bounded_witness :
  intent_value (x (fst (handle_key 8.0 KEY_LEFT (fst (timer_callback (init 1.0) 7.0)))))
  /\ intent_value (th (fst (handle_key 8.0 KEY_LEFT (fst (timer_callback (init 1.0) 7.0))))).
Proof.
  apply (drive_intent_bounded
           (fst (handle_key 8.0 KEY_LEFT (fst (timer_callback (init 1.0) 7.0))))).
  apply reach_step with (s := fst (timer_callback (init 1.0) 7.0)).
  - apply reach_step with (s := init 1.0).
    + apply reach_init.
    + apply step_tick.
  - apply step_key.
Defined.

(** ** The keys *)

Lemma dispatch_unmatched (key : string) (s : Teleop) :
  key_matches key = false -> dispatch key s = (s, inr Next).
Proof.
  unfold key_matches. intro H.
  repeat (apply orb_false_elim in H; destruct H as [H ?]).
  unfold dispatch.
  repeat match goal with
         | E : ?c = false |- context [if ?c then _ else _] => rewrite E
         end.
  reflexivity.
Qed.

(** C4, as stated, fails: the key 'z' matches no entry of the table and its
    dispatch does nothing, yet the turn of the loop that reads it moves the
    time of the last keypress. *)
Lemma unmatched_key_moves_timestamp_counterexample :
  key_matches "z" = false
  /\ dispatch "z" (init 1.0) = (init 1.0, inr Next)
  /\ last_keypress_time (fst (handle_key 2.0 "z" (init 1.0))) = 2.0
  /\ last_keypress_time (fst (handle_key 2.0 "z" (init 1.0)))
     <> last_keypress_time (init 1.0).
Proof.
  repeat split; try reflexivity.
  apply float_neq; reflexivity.
Qed.

(** C4 (amended): for every key consumed by the loop, matched by the table or
    not, the time of the last keypress is set to the current time before the
    key is dispatched: the turn is the dispatch run on the node with the new
    time, the time is the new one afterwards even when the dispatch raises,
    and a key that matches no entry changes the time and nothing else. *)
Theorem every_key_updates_timestamp (now : float) (key : string) (s : Teleop) :
  handle_key now key s = dispatch key (set_last_keypress_time now s)
  /\ last_keypress_time (fst (handle_key now key s)) = now
  /\ (if key_matches key
      then True
      else handle_key now key s = (set_last_keypress_time now s, inr Next)).
Proof.
  split; [reflexivity | split].
  - rewrite handle_key_eq.
    now destruct (dispatch_effect key (set_last_keypress_time now s)) as [-> _ _ _].
  - destruct (key_matches key) eqn:E; [exact I |].
    rewrite handle_key_eq. now apply dispatch_unmatched.
Qed.

(** C5: each of '6', '7', 'y'/'Y', 'u'/'U' adds to the motor entries 5 and 6,
    +10 and +10 for '6', +10 and -10 for '7', -10 and -10 for 'y', -10 and +10
    for 'u'; the entries 0 to 4, the drive intent and the speed are unchanged
    (the time of the keypress is recorded) and the loop goes on. *)
Theorem coupled_keys_effect (now : float) (key : string) (d5 d6 : Z)
    (sp xv tv last : float) (m0 m1 m2 m3 m4 m5 m6 : Z) :
  In (key, (d5, d6)) coupled_keys ->
  handle_key now key (mkTeleop sp [m0; m1; m2; m3; m4; m5; m6] xv tv last)
  = (mkTeleop sp [m0; m1; m2; m3; m4; (m5 + d5)%Z; (m6 + d6)%Z] xv tv now, inr Next).
Proof.
  unfold coupled_keys. cbn [In].
  intros [E | [E | [E | [E | [E | [E | []]]]]]];
    injection E as <- <- <-; reflexivity.
Qed.

Lemma coupled_keys_effect_witness :
  handle_key 3.0 "7" (mkTeleop 0.35 [0; 0; 0; 0; 0; 20; -10]%Z 1.0 0.0 2.0)
  = (mkTeleop 0.35 [0; 0; 0; 0; 0; 30; -20]%Z 1.0 0.0 3.0, inr Next).
Proof.
  apply (coupled_keys_effect 3.0 "7" 10 (-10) 0.35 1.0 0.0 2.0 0 0 0 0 0 20 (-10)).
  cbn. auto.
Defined.

(** C6: each arrow key assigns both fields of the drive intent, Up x = 1.0 and
    th = 0.0, Down x = -1.0 and th = 0.0, Right th = -1.0 and x = 0.0, Left
    th = 1.0 and x = 0.0, and from any state the keys Left then Right leave
    th = -1.0 and x = 0.0. *)
Theorem arrow_keys_assign_intent (s : Teleop) (t1 t2 : float) :
  handle_key t1 KEY_UP s = (mkTeleop (speed s) (motors s) 1.0 0.0 t1, inr Next)
  /\ handle_key t1 KEY_DOWN s = (mkTeleop (speed s) (motors s) (-1.0) 0.0 t1, inr Next)
  /\ handle_key t1 KEY_RIGHT s = (mkTeleop (speed s) (motors s) 0.0 (-1.0) t1, inr Next)
  /\ handle_key t1 KEY_LEFT s = (mkTeleop (speed s) (motors s) 0.0 1.0 t1, inr Next)
  /\ handle_keys [(t1, KEY_LEFT); (t2, KEY_RIGHT)] s
     = (mkTeleop (speed s) (motors s) 0.0 (-1.0) t2, inr Next)
  /\ th (fst (handle_keys [(t1, KEY_LEFT); (t2, KEY_RIGHT)] s)) = (-1.0)
  /\ x (fst (handle_keys [(t1, KEY_LEFT); (t2, KEY_RIGHT)] s)) = 0.0.
Proof. repeat split; reflexivity. Qed.

(** ** The speed *)

Example fpow_11_10 : fpow 1.1 10 = 2.5937424601000023.
Proof. reflexivity. Qed.

Example exact_value_035 :
  exact_value 0.35 = Some (inject_Z 6305039478318694 * Qpower 2 (-54))%Q.
Proof. reflexivity. Qed.

(** C8, as stated, fails: ten presses of 'o' give the float
    0.90780986103500094, which is neither the float that the expression
    0.35 * 1.1 ** 10 evaluates to (0.90780986103500072) nor the rational
    number 0.35 * 1.1^10 = 0.907809861035. *)
Lemma ten_o_presses_counterexample :
  speed_after_o 10 = 0.90780986103500094
  /\ 0.35 * fpow 1.1 10 = 0.90780986103500072
  /\ (speed_after_o 10 =? 0.35 * fpow 1.1 10) = false
  /\ speed_after_o 10 <> 0.35 * fpow 1.1 10
  /\ match exact_value (speed_after_o 10) with
     | Some q => Qeq_bool q ((35 # 100) * Qpower (11 # 10) 10) = false
     | None => False
     end.
Proof.
  split; [reflexivity | split; [reflexivity | split; [reflexivity | split]]].
  - apply float_neq; reflexivity.
  - vm_compute. reflexivity.
Qed.

Lemma handle_o (now : float) (s : Teleop) :
  handle_key now "o" s = (mkTeleop (speed s * 1.1) (motors s) (x s) (th s) now, inr Next).
Proof. reflexivity. Qed.

Lemma speed_after_o_keys (now : float) (n : nat) :
  forall s,
    speed (fst (handle_keys (repeat (now, "o"%string) n) s))
    = Nat.iter n (fun v => v * 1.1) (speed s).
Proof.
  induction n as [| n IH]; intro s.
  - reflexivity.
  - cbn [repeat handle_keys]. unfold bind. rewrite handle_o.
    rewrite IH. cbn [speed fst]. symmetry.
    exact (Nat.iter_succ_r n float (fun v => v * 1.1) (speed s)).
Qed.

(** C8 (amended): the speed starts at 0.35; 'o' and 'O' multiply it by 1.1 and
    'p' and 'P' by 0.9, whatever its value (there is no clamp), so [n] presses
    of 'o' on a fresh node give 0.35 multiplied [n] times by 1.1, each product
    rounded to a float.  Ten presses give the float 0.90780986103500094, which
    is within 1e-15 of the number 0.35 * 1.1^10 = 0.907809861035 without being
    equal to it. *)
Theorem speed_scaling (s : Teleop) (now : float) (n : nat) :
  speed (init now) = 0.35
  /\ handle_key now "o" s = (mkTeleop (speed s * 1.1) (motors s) (x s) (th s) now, inr Next)
  /\ handle_key now "O" s = (mkTeleop (speed s * 1.1) (motors s) (x s) (th s) now, inr Next)
  /\ handle_key now "p" s = (mkTeleop (speed s * 0.9) (motors s) (x s) (th s) now, inr Next)
  /\ handle_key now "P" s = (mkTeleop (speed s * 0.9) (motors s) (x s) (th s) now, inr Next)
  /\ speed (fst (handle_keys (repeat (now, "o"%string) n) (init now)))
     = Nat.iter n (fun v => v * 1.1) 0.35
  /\ speed (fst (handle_keys (repeat (now, "o"%string) 10) (init now)))
     = 0.90780986103500094
  /\ match exact_value 0.90780986103500094 with
     | Some q =>
         Qle_bool (Qabs (q - (35 # 100) * Qpower (11 # 10) 10)) (1 # 10 ^ 15) = true
     | None => False
     end.
Proof.
  split; [reflexivity |].
  do 4 (split; [reflexivity |]).
  split; [apply speed_after_o_keys |].
  split; [rewrite speed_after_o_keys; reflexivity |].
  vm_compute. reflexivity.
Qed.

(** ** The key decoder *)

Lemma getKey_key (settings : tty_mode) (w : World) :
  fst (getKey settings w)
  = match stdin w with
    | EmptyString => EmptyString
    | String c rest =>
        if Ascii.eqb c ESC then String c (Py.take 2 rest) else String c EmptyString
    end.
Proof.
  unfold getKey, stdin_read. cbn [stdin set_tty set_stdin].
  destruct (stdin w) as [| c rest]; [reflexivity |].
  cbn [Py.take Py.drop String.eqb].
  destruct (Ascii.eqb c ESC); reflexivity.
Qed.

Lemma getKey_world (settings : tty_mode) (w : World) :
  snd (getKey settings w)
  = mkWorld (match stdin w with
             | EmptyString => EmptyString
             | String c rest => if Ascii.eqb c ESC then Py.drop 2 rest else rest
             end)
            settings (time_calls w) (spinning w) (teleop w).
Proof.
  unfold getKey, stdin_read. cbn [stdin set_tty set_stdin].
  destruct (stdin w) as [| c rest]; [reflexivity |].
  cbn [Py.take Py.drop String.eqb].
  destruct (Ascii.eqb c ESC); reflexivity.
Qed.

(** ** The loop, the end of the stream and the shutdown path *)

Lemma finally_shut_down (settings : tty_mode) (w : World) :
  shut_down settings (finally settings w).
Proof. repeat split. Qed.


Section MainFacts.

Variable clock : nat -> float.

Lemma loop_at_end (fuel : nat) (settings : tty_mode) (w : World) :
  stdin w = EmptyString ->
  loop clock (S fuel) settings w
  = Some (Raised Py.ValueError,
          mkWorld EmptyString settings (S (time_calls w)) (spinning w)
                  (set_last_keypress_time (clock (time_calls w)) (teleop w))).
Proof.
  intro E. cbn [loop].
  rewrite (surjective_pairing (getKey settings w)), getKey_key, getKey_world, E.
  reflexivity.
Qed.

Lemma getKey_consumes (settings : tty_mode) (w : World) :
  stdin w <> EmptyString ->
  (String.length (stdin (snd (getKey settings w))) < String.length (stdin w))%nat.
Proof.
  rewrite getKey_world. cbn [stdin].
  destruct (stdin w) as [| c rest]; [congruence | intros _].
  destruct (Ascii.eqb c ESC); cbn [String.length]; [| lia].
  destruct rest as [| c1 [| c2 rest]]; cbn; lia.
Qed.

(** The loop ends: one turn more than the stream has characters is enough. *)
Lemma loop_ends (settings : tty_mode) (fuel : nat) :
  forall w, (String.length (stdin w) < fuel)%nat ->
            exists e w', loop clock fuel settings w = Some (e, w').
Proof.
  induction fuel as [| fuel IH]; intros w Hlen; [lia |].
  destruct (stdin w) as [| c rest] eqn:E.
  - rewrite (loop_at_end fuel settings w E). eauto.
  - assert (Hc : stdin w <> EmptyString) by (rewrite E; discriminate).
    pose proof (getKey_consumes settings w Hc) as Hlt.
    cbn [loop].
    destruct (getKey settings w) as [key w1]. cbn [snd] in Hlt.
    unfold time_time.
    destruct (handle_key _ key _) as [t [e | [|]]]; eauto.
    apply IH. cbn [stdin set_teleop set_time_calls].
    rewrite E in Hlt. cbn [String.length] in Hlt, Hlen. lia.
Qed.

(** [main] returns, whatever is typed, and leaves the drive intent at zero,
    the executor stopped and the terminal as it found it. *)
Lemma main_ends_shut_down (stdin0 : string) (tty0 : tty_mode) :
  exists e w, main clock stdin0 tty0 = Some (e, w) /\ shut_down tty0 w.
Proof.
  unfold main.
  destruct (loop_ends tty0 (S (String.length stdin0))
              (mkWorld stdin0 tty0 1 true (init (clock 0%nat)))) as (e & w' & ->).
  - cbn. lia.
  - exists e, (finally tty0 w'). split; [reflexivity | apply finally_shut_down].
Qed.

(** The nodes that [main] goes through are reachable ones. *)
Lemma loop_reachable (settings : tty_mode) (fuel : nat) :
  forall w e w',
    reachable (teleop w) ->
    loop clock fuel settings w = Some (e, w') ->
    reachable (teleop w').
Proof.
  induction fuel as [| fuel IH]; intros w e w' Hr Hloop; [discriminate |].
  cbn [loop] in Hloop.
  pose proof (getKey_world settings w) as Hw.
  destruct (getKey settings w) as [key w1]. cbn [snd] in Hw. subst w1.
  unfold time_time in Hloop. cbn [teleop set_time_calls] in Hloop.
  pose proof (reach_step _ _ Hr (step_key (clock (time_calls w)) key (teleop w))) as Hk.
  cbn [time_calls] in Hloop.
  destruct (handle_key (clock (time_calls w)) key (teleop w)) as [t [x | [|]]];
    cbn [fst] in Hk.
  - injection Hloop as <- <-. exact Hk.
  - eapply IH; [| exact Hloop]. exact Hk.
  - injection Hloop as <- <-. exact Hk.
Qed.

Lemma main_reachable (stdin0 : string) (tty0 : tty_mode) (e : exit) (w : World) :
  main clock stdin0 tty0 = Some (e, w) -> reachable (teleop w).
Proof.
  unfold main. intro Hmain.
  destruct (loop clock _ tty0 _) as [[e1 w1] |] eqn:Hloop; [| discriminate].
  injection Hmain as <- <-.
  apply reach_step with (s := teleop w1); [| apply step_finally].
  eapply loop_reachable; [| exact Hloop]. apply reach_init.
Qed.

End MainFacts.



(** * Further properties of the code *)

(** ** The motor keys *)

Lemma length_7 {A : Type} (l : list A) :
  List.length l = 7%nat ->
  exists a0 a1 a2 a3 a4 a5 a6, l = [a0; a1; a2; a3; a4; a5; a6].
Proof.
  destruct l as [| a0 [| a1 [| a2 [| a3 [| a4 [| a5 [| a6 [| a7 l]]]]]]]];
    try discriminate.
  intros _. now exists a0, a1, a2, a3, a4, a5, a6.
Qed.

Lemma add_offsets_length (ms d : list Z) :
  List.length (add_offsets ms d) = List.length ms.
Proof.
  revert d. induction ms as [| m ms IH]; intros [| v d]; cbn; try reflexivity.
  now rewrite IH.
Qed.

Lemma add_offsets_comm (ms a b : list Z) :
  add_offsets (add_offsets ms a) b = add_offsets (add_offsets ms b) a.
Proof.
  revert a b. induction ms as [| m ms IH]; intros [| v a] [| v' b]; cbn;
    try reflexivity.
  rewrite IH. f_equal. lia.
Qed.

Lemma motor_key_step (now : float) (key : string) (d : list Z) (s : Teleop) :
  In (key, d) motor_keys ->
  List.length (motors s) = 7%nat ->
  handle_key now key s
  = (mkTeleop (speed s) (add_offsets (motors s) d) (x s) (th s) now, inr Next).
Proof.
  intros Hin Hlen.
  destruct s as [sp ms xv tv last]. cbn [motors speed x th] in *.
  destruct (length_7 ms Hlen) as (m0 & m1 & m2 & m3 & m4 & m5 & m6 & ->).
  unfold motor_keys in Hin. cbn [In] in Hin.
  repeat (destruct Hin as [E | Hin];
          [injection E as <- <-; cbn [add_offsets]; rewrite ?Z.add_0_r; reflexivity |]).
  contradiction.
Qed.

(** X1: the digit keys '1' to '7' and the letter keys q, w, e, r, t, y, u in
    either case add their offsets of 10 or -10 to the motor array of a node
    with seven motors, record the time of the key and change nothing else;
    none of them raises, and the loop goes on. *)
Theorem motor_keys_effect (now : float) (key : string) (d : list Z) (s : Teleop) :
  In (key, d) motor_keys ->
  List.length (motors s) = 7%nat ->
  handle_key now key s
  = (mkTeleop (speed s) (add_offsets (motors s) d) (x s) (th s) now, inr Next).
Proof. exact (motor_key_step now key d s). Qed.

Lemma motor_keys_effect_witness :
  handle_key 5.0 "W" (mkTeleop 0.35 [0; 30; 0; 0; 0; 10; -10]%Z 0.0 1.0 4.0)
  = (mkTeleop 0.35 [0; 20; 0; 0; 0; 10; -10]%Z 0.0 1.0 5.0, inr Next).
Proof.
  apply (motor_keys_effect 5.0 "W" [0; -10; 0; 0; 0; 0; 0]%Z
           (mkTeleop 0.35 [0; 30; 0; 0; 0; 10; -10]%Z 0.0 1.0 4.0)).
  - cbn. auto 12.
  - reflexivity.
Defined.

Lemma motor_key_in (key : string) :
  is_motor_key key = true -> In (key, offsets_of key) motor_keys.
Proof.
  unfold is_motor_key, offsets_of. intro H.
  destruct (find (fun kd => String.eqb (fst kd) key) motor_keys) as [[k d] |] eqn:F.
  - apply find_some in F. destruct F as [Hin Hk].
    cbn [fst snd] in *. apply String.eqb_eq in Hk. now subst k.
  - apply existsb_exists in H. destruct H as (kd & Hin & Hk).
    now rewrite (find_none _ _ F kd Hin) in Hk.
Qed.

Lemma handle_keys_cons (now : float) (key : string)
    (rest : list (float * string)) (s s' : Teleop) :
  handle_key now key s = (s', inr Next) ->
  handle_keys ((now, key) :: rest) s = handle_keys rest s'.
Proof. intro H. cbn [handle_keys]. unfold bind. now rewrite H. Qed.

Lemma motor_keys_run (keys : list (float * string)) (s : Teleop) :
  Forall (fun tk => is_motor_key (snd tk) = true) keys ->
  List.length (motors s) = 7%nat ->
  handle_keys keys s
  = (mkTeleop (speed s) (fold_left add_offsets (offsets_of_keys keys) (motors s))
              (x s) (th s) (last_time keys (last_keypress_time s)),
     inr Next).
Proof.
  intro Hall. revert s.
  induction Hall as [| [now key] rest Hkey _ IH]; intros s Hlen.
  - destruct s. reflexivity.
  - cbn [snd] in Hkey.
    pose proof (motor_key_step now key _ s (motor_key_in key Hkey) Hlen) as Hstep.
    rewrite (handle_keys_cons _ _ _ _ _ Hstep).
    rewrite IH by (cbn [motors]; rewrite add_offsets_length; exact Hlen).
    reflexivity.
Qed.

(** X2: a sequence of motor keys, pressed on a node with seven motors, adds the
    offsets of its keys one after the other to the motor array; the speed and
    the drive intent are as before, the time recorded is that of the last key,
    and no key of the sequence raises or ends the loop. *)
Theorem motor_key_sequence (keys : list (float * string)) (s : Teleop) :
  Forall (fun tk => is_motor_key (snd tk) = true) keys ->
  List.length (motors s) = 7%nat ->
  handle_keys keys s
  = (mkTeleop (speed s) (fold_left add_offsets (offsets_of_keys keys) (motors s))
              (x s) (th s) (last_time keys (last_keypress_time s)),
     inr Next).
Proof. exact (motor_keys_run keys s). Qed.

Lemma motor_key_sequence_witness :
  handle_keys [(1.0, "1"%string); (2.0, "6"%string); (3.0, "U"%string)] (init 0.0)
  = (mkTeleop 0.35 [10; 0; 0; 0; 0; 0; 20]%Z 0.0 0.0 3.0, inr Next).
Proof.
  apply (motor_key_sequence
           [(1.0, "1"%string); (2.0, "6"%string); (3.0, "U"%string)] (init 0.0)).
  - repeat constructor.
  - reflexivity.
Defined.

Lemma fold_add_offsets_perm (ds1 ds2 : list (list Z)) :
  Permutation ds1 ds2 ->
  forall ms, fold_left add_offsets ds1 ms = fold_left add_offsets ds2 ms.
Proof.
  induction 1 as [| d l1 l2 _ IH | d1 d2 l | l1 l2 l3 _ IH1 _ IH2]; intro ms; cbn.
  - reflexivity.
  - apply IH.
  - now rewrite add_offsets_comm.
  - now rewrite IH1.
Qed.

(** X3: the motor array after a sequence of motor keys does not depend on
    the order in which the keys were pressed. *)
Theorem motor_keys_any_order (keys1 keys2 : list (float * string)) (s : Teleop) :
  Forall (fun tk => is_motor_key (snd tk) = true) keys1 ->
  Permutation (map snd keys1) (map snd keys2) ->
  List.length (motors s) = 7%nat ->
  motors (fst (handle_keys keys1 s)) = motors (fst (handle_keys keys2 s)).
Proof.
  intros Hall Hperm Hlen.
  assert (Hall2 : Forall (fun tk => is_motor_key (snd tk) = true) keys2).
  { apply Forall_forall. intros tk Hin.
    apply (in_map snd) in Hin.
    apply (Permutation_in _ (Permutation_sym Hperm)) in Hin.
    apply in_map_iff in Hin. destruct Hin as (tk1 & E & Hin1).
    rewrite <- E. exact (proj1 (Forall_forall _ _) Hall tk1 Hin1). }
  rewrite (motor_keys_run keys1 s Hall Hlen).
  rewrite (motor_keys_run keys2 s Hall2 Hlen). cbn [fst motors].
  apply fold_add_offsets_perm.
  unfold offsets_of_keys.
  rewrite <- (map_map snd offsets_of keys1), <- (map_map snd offsets_of keys2).
  now apply Permutation_map.
Qed.

Lemma motor_keys_any_order_witness :
  motors (fst (handle_keys [(1.0, "1"%string); (2.0, "y"%string); (3.0, "7"%string)]
                           (init 0.0)))
  = motors (fst (handle_keys [(1.0, "7"%string); (2.0, "1"%string); (3.0, "y"%string)]
                             (init 0.0))).
Proof.
  apply (motor_keys_any_order
           [(1.0, "1"%string); (2.0, "y"%string); (3.0, "7"%string)]
           [(1.0, "7"%string); (2.0, "1"%string); (3.0, "y"%string)] (init 0.0)).
  - repeat constructor.
  - cbn [map snd].
    apply Permutation_sym, (Permutation_cons_app ["1"%string; "y"%string] []).
    apply Permutation_refl.
  - reflexivity.
Defined.

Lemma add_offsets_opp (ms d : list Z) :
  add_offsets (add_offsets ms d) (map Z.opp d) = ms.
Proof.
  revert d. induction ms as [| m ms IH]; intros [| v d]; cbn; try reflexivity.
  rewrite IH. f_equal. lia.
Qed.

(** X4: a motor key followed by a motor key with the opposite offsets ('1' and
    'q', '6' and 'y', '7' and 'u', in either order) leaves the motor array
    as it was. *)
Theorem motor_keys_round_trip (t1 t2 : float) (k1 k2 : string) (s : Teleop) :
  is_motor_key k1 = true ->
  is_motor_key k2 = true ->
  offsets_of k2 = map Z.opp (offsets_of k1) ->
  List.length (motors s) = 7%nat ->
  handle_keys [(t1, k1); (t2, k2)] s
  = (mkTeleop (speed s) (motors s) (x s) (th s) t2, inr Next).
Proof.
  intros H1 H2 Hopp Hlen.
  rewrite (motor_keys_run [(t1, k1); (t2, k2)] s) by (repeat constructor; assumption).
  cbn [offsets_of_keys map snd fold_left last_time fst].
  now rewrite Hopp, add_offsets_opp.
Qed.

Lemma motor_keys_round_trip_witness :
  handle_keys [(1.0, "1"%string); (2.0, "q"%string)] (init 0.0)
  = (mkTeleop 0.35 [0; 0; 0; 0; 0; 0; 0]%Z 0.0 0.0 2.0, inr Next).
Proof.
  apply (motor_keys_round_trip 1.0 2.0 "1" "q" (init 0.0)); reflexivity.
Defined.

Lemma add_offsets_zero (ms d : list Z) :
  add_offsets ms (map (Z.mul 0) d) = ms.
Proof.
  revert d. induction ms as [| m ms IH]; intros [| v d]; cbn [map add_offsets];
    try reflexivity.
  rewrite IH. f_equal. lia.
Qed.

Lemma add_offsets_succ (a : Z) (ms d : list Z) :
  add_offsets (add_offsets ms d) (map (Z.mul a) d)
  = add_offsets ms (map (Z.mul (a + 1)) d).
Proof.
  revert d. induction ms as [| m ms IH]; intros [| v d]; cbn [map add_offsets];
    try reflexivity.
  rewrite IH. f_equal. lia.
Qed.

Lemma fold_add_offsets_repeat (n : nat) (d : list Z) :
  forall ms,
    fold_left add_offsets (repeat d n) ms
    = add_offsets ms (map (Z.mul (Z.of_nat n)) d).
Proof.
  induction n as [| n IH]; intro ms.
  - cbn [repeat fold_left]. symmetry. apply add_offsets_zero.
  - cbn [repeat fold_left]. rewrite IH, add_offsets_succ.
    now replace (Z.of_nat n + 1)%Z with (Z.of_nat (S n)) by lia.
Qed.

Lemma motor_key_repeat_run (now : float) (key : string) (n : nat) (s : Teleop) :
  is_motor_key key = true ->
  List.length (motors s) = 7%nat ->
  motors (fst (handle_keys (repeat (now, key) n) s))
  = add_offsets (motors s) (map (Z.mul (Z.of_nat n)) (offsets_of key)).
Proof.
  intros Hkey Hlen.
  rewrite motor_keys_run; [| | exact Hlen].
  - cbn [fst motors]. unfold offsets_of_keys. rewrite map_repeat. cbn [snd].
    apply fold_add_offsets_repeat.
  - apply Forall_forall. intros tk Hin. apply repeat_spec in Hin. now subst tk.
Qed.

(** X5: a motor key pressed [n] times adds [n] times its offsets: the
    entries are accumulated without any bound. *)
Theorem motor_key_repeated (now : float) (key : string) (n : nat) (s : Teleop) :
  is_motor_key key = true ->
  List.length (motors s) = 7%nat ->
  motors (fst (handle_keys (repeat (now, key) n) s))
  = add_offsets (motors s) (map (Z.mul (Z.of_nat n)) (offsets_of key)).
Proof. exact (motor_key_repeat_run now key n s). Qed.

Lemma motor_key_repeated_witness :
  motors (fst (handle_keys (repeat (1.0, "7"%string) 1000) (init 0.0)))
  = [0; 0; 0; 0; 0; 10000; -10000]%Z.
Proof.
  apply (motor_key_repeated 1.0 "7" 1000 (init 0.0)); reflexivity.
Defined.

(** ** The messages of a tick *)

Lemma timer_callback_motor_msg (s : Teleop) (now : float) :
  snd (snd (timer_callback s now)) = Int32MultiArray_data (motors s).
Proof. unfold timer_callback. destruct (timed_out s now); reflexivity. Qed.

Lemma motor_overflowed_motors :
  motors motor_overflowed = [2147483650; 0; 0; 0; 0; 0; 0]%Z.
Proof.
  unfold motor_overflowed.
  generalize (Z2Nat.id 214748365). generalize (Z.to_nat 214748365).
  intros n Hn.
  rewrite motor_key_repeat_run by reflexivity.
  rewrite Hn by lia. reflexivity.
Qed.

(** C2, as stated, fails: the motor array is unbounded and the message field
    is a sequence of int32.  In the state reached by 214748365 presses of '1'
    the first entry is 2147483650, the message class refuses the array and
    the tick publishes no motor message. *)
Lemma motor_message_refused_counterexample :
  reachable motor_overflowed
  /\ motors motor_overflowed = [2147483650; 0; 0; 0; 0; 0; 0]%Z
  /\ snd (snd (timer_callback motor_overflowed 2.0)) = None.
Proof.
  split; [| split].
  - unfold motor_overflowed. apply handle_keys_reachable. apply reach_init.
  - exact motor_overflowed_motors.
  - rewrite timer_callback_motor_msg, motor_overflowed_motors. reflexivity.
Qed.

(** C2 (amended): on a tick, the velocity message published has
    linear.x = x * speed and angular.z = th * speed, its other components
    0.0, for the values after the watchdog check: x and th of the node the
    tick starts from, or 0.0 for both when the watchdog fires, and the speed
    of that node.  The motor message carries the motor array of that node,
    of 7 entries in a reachable state, when every entry is an int32;
    otherwise the message class refuses the array and no motor message is
    published on that tick. *)
Theorem timer_callback_publishes (s : Teleop) (now : float) :
  reachable s ->
  fst (snd (timer_callback s now))
  = (if timed_out s now
     then {| linear := mkVector3 (0.0 * speed s) 0.0 0.0;
             angular := mkVector3 0.0 0.0 (0.0 * speed s) |}
     else {| linear := mkVector3 (x s * speed s) 0.0 0.0;
             angular := mkVector3 0.0 0.0 (th s * speed s) |})
  /\ fst (snd (timer_callback s now))
     = {| linear := mkVector3 (x (fst (timer_callback s now))
                               * speed (fst (timer_callback s now))) 0.0 0.0;
          angular := mkVector3 0.0 0.0 (th (fst (timer_callback s now))
                                        * speed (fst (timer_callback s now))) |}
  /\ snd (snd (timer_callback s now))
     = (if forallb int32 (motors s) then Some {| data := motors s |} else None)
  /\ List.length (motors s) = 7%nat.
Proof.
  intro Hr. destruct (reachable_ok s Hr) as (_ & _ & Hl).
  split; [| split; [| split]].
  - unfold timer_callback. destruct (timed_out s now); reflexivity.
  - unfold timer_callback. destruct (timed_out s now); reflexivity.
  - apply timer_callback_motor_msg.
  - exact Hl.
Qed.

Lemma timer_callback_publishes_witness :
  snd (timer_callback (fst (handle_keys [(1.0, KEY_UP); (2.0, "3"%string)] (init 0.0))) 2.5)
  = ({| linear := mkVector3 0.35 0.0 0.0; angular := mkVector3 0.0 0.0 0.0 |},
     Some {| data := [0; 0; 10; 0; 0; 0; 0]%Z |})
  /\ List.length (motors (fst (handle_keys [(1.0, KEY_UP); (2.0, "3"%string)] (init 0.0))))
     = 7%nat.
Proof.
  split.
  - vm_compute. reflexivity.
  - apply (timer_callback_publishes
             (fst (handle_keys [(1.0, KEY_UP); (2.0, "3"%string)] (init 0.0))) 2.5).
    apply handle_keys_reachable. apply reach_init.
Defined.

(** ** What the motor array keeps *)

Lemma substring_nil (n m : nat) : substring n m "" = ""%string.
Proof. destruct n, m; reflexivity. Qed.

Lemma substrings_12345 (m l : nat) :
  In (substring m l "12345")
     [""; "1"; "2"; "3"; "4"; "5"; "12"; "23"; "34"; "45";
      "123"; "234"; "345"; "1234"; "2345"; "12345"]%string.
Proof.
  destruct m as [| [| [| [| [| [| m]]]]]];
    destruct l as [| [| [| [| [| [| l]]]]]];
    cbn [substring]; rewrite ?substring_nil; cbn [In];
    repeat (first [left; reflexivity | right]).
Qed.

(** The keys for which [key in "12345"] holds. *)
Lemma contains_12345 (key : string) :
  Py.contains key "12345" = true ->
  In key [""; "1"; "2"; "3"; "4"; "5"; "12"; "23"; "34"; "45";
          "123"; "234"; "345"; "1234"; "2345"; "12345"]%string.
Proof.
  unfold Py.contains.
  destruct (String.index 0 key "12345") as [m |] eqn:E; [| discriminate].
  intros _. apply index_correct1 in E. rewrite <- E. apply substrings_12345.
Qed.

Lemma qwert_index (u : string) (idx : Z) :
  Py.str_index "QWERT" u = inr idx -> (0 <= idx <= 4)%Z \/ u = ""%string.
Proof.
  unfold Py.str_index. cbn [String.index].
  repeat destruct (prefix u _); try (intro E; injection E as <-; left; lia).
  destruct u; [now right | discriminate].
Qed.

Lemma upper_nil (key : string) : Py.upper key = ""%string -> key = ""%string.
Proof. destruct key; [reflexivity | discriminate]. Qed.

Lemma motors_iadd_at (i : nat) (idx d v : Z) (s : Teleop) :
  Py.norm_index (List.length (motors s)) idx = Some i ->
  nth_error (motors s) i = Some v ->
  motors_iadd idx d s = (set_motors (Py.set_nth i (v + d)%Z (motors s)) s, inr tt).
Proof.
  intros Hi Hv.
  unfold motors_iadd, bind, get, lift, modify, Py.getitem, Py.setitem.
  now rewrite Hi, Hv.
Qed.

Lemma motors_iadd_out (idx d : Z) (s : Teleop) :
  Py.norm_index (List.length (motors s)) idx = None ->
  motors_iadd idx d s = (s, inl Py.IndexError).
Proof.
  intro Hi.
  unfold motors_iadd, bind, get, lift, modify, Py.getitem.
  now rewrite Hi.
Qed.

(** Runs the [motors_iadd] of the goal on a node whose motor array is
    written out, the index being a numeral. *)
Ltac run_iadd :=
  run_exec;
  repeat match goal with
         | |- context [motors_iadd ?idx ?d ?s] =>
             first [ erewrite (motors_iadd_at _ idx d _ s);
                     [| vm_compute; reflexivity | reflexivity]
                   | rewrite (motors_iadd_out idx d s) by (vm_compute; reflexivity) ];
             cbv beta iota;
             cbn [set_motors motors speed x th last_keypress_time Py.set_nth]
         end;
  cbn [fst motors set_x set_th set_speed set_motors].

Ltac mod_lia := Z.div_mod_to_equations; lia.

Ltac inv_solve :=
  unfold motors_inv, GRANULARITY;
  split; [reflexivity | split; [repeat constructor; mod_lia | cbn [nth]; mod_lia]].

Lemma dispatch_motors_inv (key : string) (s : Teleop) :
  motors_inv (motors s) -> motors_inv (motors (fst (dispatch key s))).
Proof.
  intros (Hlen & Hall & Hsum).
  destruct s as [sp ms xv tv last]; cbn [motors] in *.
  destruct (length_7 ms Hlen) as (m0 & m1 & m2 & m3 & m4 & m5 & m6 & ->).
  repeat match goal with
         | H : Forall _ (_ :: _) |- _ =>
             apply Forall_cons_iff in H; destruct H as [? H]
         end.
  cbn [nth] in Hsum. unfold dispatch.
  repeat match goal with
         | |- context [if ?c then _ else _] => destruct c eqn:?
         end;
    try (run_iadd; inv_solve).
  - (* a digit key *)
    match goal with
    | H : Py.contains key _ = true |- _ =>
        apply contains_12345 in H; cbn [In] in H; rename H into Hk
    end.
    repeat (destruct Hk as [<- | Hk];
            [match goal with
             | |- context [Py.int ?k] =>
                 let r := eval vm_compute in (Py.int k) in
                 change (Py.int k) with r
             end; run_iadd; inv_solve |]).
    contradiction.
  - (* a letter key *)
    destruct (Py.str_index "QWERT" (Py.upper key)) as [e | idx] eqn:Ei.
    + run_iadd. inv_solve.
    + destruct (qwert_index _ _ Ei) as [Hidx | Hu].
      * assert (Hc : (idx = 0 \/ idx = 1 \/ idx = 2 \/ idx = 3 \/ idx = 4)%Z) by lia.
        destruct Hc as [-> | [-> | [-> | [-> | ->]]]]; run_iadd; inv_solve.
      * apply upper_nil in Hu. subst key. discriminate.
Qed.

Lemma handle_keys_unfold (now : float) (key : string)
    (rest : list (float * string)) (s : Teleop) :
  handle_keys ((now, key) :: rest) s
  = match handle_key now key s with
    | (s', inr Next) => handle_keys rest s'
    | (s', inr Stop) => (s', inr Stop)
    | (s', inl e) => (s', inl e)
    end.
Proof.
  cbn [handle_keys]. unfold bind.
  now destruct (handle_key now key s) as [s' [e | [|]]].
Qed.

Lemma handle_keys_motors_inv (keys : list (float * string)) :
  forall s,
    motors_inv (motors s) -> motors_inv (motors (fst (handle_keys keys s))).
Proof.
  induction keys as [| [now key] rest IH]; intros s Hs.
  - exact Hs.
  - rewrite handle_keys_unfold.
    pose proof (dispatch_motors_inv key (set_last_keypress_time now s) Hs) as Hk.
    rewrite <- handle_key_eq in Hk.
    destruct (handle_key now key s) as [s' [e | [|]]]; cbn [fst] in *;
      try exact Hk.
    now apply IH.
Qed.

(** Between the two statements of the key '6' the motor 5 has moved and the
    motor 6 has not: the sum of the two is then no multiple of 20.  A tick of
    the timer that falls there publishes that array. *)
Example coupled_key_midway :
  motors (fst (motors_iadd 5 GRANULARITY (init 0.0))) = [0; 0; 0; 0; 0; 10; 0]%Z
  /\ ((10 + 0) mod 20 <> 0)%Z.
Proof. split; [reflexivity | discriminate]. Qed.

(** X6: the motor array between two keys.  The array of a fresh node has
    seven entries, each a multiple of 10, those of the motors 5 and 6 adding
    up to a multiple of 20; every sequence of whole turns of the loop keeps
    this, whatever the keys are, also when the last turn raises or breaks out
    of the loop; and a tick of the timer does not write the array.  (Within
    the turn of a coupled key, between its two statements, the entry of the
    motor 5 has moved alone: see [coupled_key_midway].) *)
Theorem motors_between_keys (keys : list (float * string)) (s : Teleop)
    (now : float) :
  motors_inv (motors s) ->
  motors_inv (motors (fst (handle_keys keys s)))
  /\ motors (fst (timer_callback s now)) = motors s
  /\ motors_inv (motors (init now)).
Proof.
  intro Hs. split; [| split].
  - now apply handle_keys_motors_inv.
  - rewrite timer_callback_node. now destruct (timed_out s now).
  - cbn. inv_solve.
Qed.

Lemma motors_between_keys_witness :
  motors_inv (motors (fst (handle_keys [(1.0, "7"%string); (2.0, "t"%string);
                                         (3.0, "12"%string); (4.0, "y"%string)]
                                        (init 0.0)))).
Proof.
  apply (motors_between_keys
           [(1.0, "7"%string); (2.0, "t"%string); (3.0, "12"%string); (4.0, "y"%string)]
           (init 0.0) 0.0).
  cbn. inv_solve.
Defined.

(** ** The keys that raise *)

Lemma dispatch_char_no_raise (c : ascii) (s : Teleop) :
  List.length (motors s) = 7%nat ->
  raises (dispatch (String c EmptyString) s) = false.
Proof.
  intro Hlen. destruct s as [sp ms xv tv last]. cbn [motors] in Hlen.
  destruct (length_7 ms Hlen) as (m0 & m1 & m2 & m3 & m4 & m5 & m6 & ->).
  destruct c as [[] [] [] [] [] [] [] []]; vm_compute; reflexivity.
Qed.

Lemma dispatch_esc_no_raise (t : string) (s : Teleop) :
  raises (dispatch (String ESC t) s) = false.
Proof.
  unfold dispatch.
  repeat match goal with
         | |- context [if ?c then _ else _] => destruct c eqn:?
         end;
    first [ reflexivity
          | match goal with
            | H : _ = true |- _ => vm_compute in H; discriminate H
            end ].
Qed.

(** ** The three groups of keys *)

(** X10: a key acts on one part of the node at most: whatever the key and the
    node, the turn of the loop that handles it leaves at least two of the
    drive intent (x and th), the speed and the motor array as they were, also
    when the key raises.  The motor keys never touch the drive, nor the drive
    keys the motors. *)
Theorem key_touches_one_part (now : float) (key : string) (s : Teleop) :
  (speed (fst (handle_key now key s)) = speed s
   /\ motors (fst (handle_key now key s)) = motors s)
  \/ (x (fst (handle_key now key s)) = x s
      /\ th (fst (handle_key now key s)) = th s
      /\ motors (fst (handle_key now key s)) = motors s)
  \/ (x (fst (handle_key now key s)) = x s
      /\ th (fst (handle_key now key s)) = th s
      /\ speed (fst (handle_key now key s)) = speed s).
Proof.
  rewrite handle_key_eq.
  dispatch_cases; cbn; auto 6.
Qed.

(** ** Multiplication of floats by a unit and by a positive number *)

Section FloatFacts.

Local Open Scope Z_scope.

Lemma SF64mul_unit (s0 s : bool) (m : positive) (e : Z) :
  bounded prec emax m e = true ->
  SF64mul (S754_finite s0 4503599627370496 (-52)) (S754_finite s m e)
  = S754_finite (xorb s0 s) m e.
Proof.
  unfold bounded, canonical_mantissa. intro Hb.
  apply andb_prop in Hb. destruct Hb as [Hc He].
  apply Z.eqb_eq in Hc.
  unfold SF64mul, SFmul. cbn [Pos.mul].
  unfold binary_round_aux, shr_fexp.
  cbn [Zdigits2 digits2_pos].
  match goal with
  | |- context [fexp prec emax (?a + (-52 + e)) - (-52 + e)] =>
      replace (fexp prec emax (a + (-52 + e)) - (-52 + e)) with 52
  end.
  2:{ rewrite !Pos2Z.inj_succ.
      match goal with
      | |- context [fexp prec emax ?a] =>
          replace a with (Z.pos (digits2_pos m) + e) by lia
      end.
      rewrite Hc. lia. }
  cbn [shr shr_record_of_loc iter_pos shr_1 orb shr_m loc_of_shr_record
       round_nearest_even Zdigits2].
  replace (-52 + e + 52) with e by lia.
  rewrite Hc, Z.sub_diag. cbn [shr shr_m]. rewrite He. reflexivity.
Qed.


Lemma shr_1_nonneg (mrs : shr_record) : 0 <= shr_m mrs -> 0 <= shr_m (shr_1 mrs).
Proof.
  destruct mrs as [m r s]. cbn [shr_m].
  destruct m as [| [p | p |] | p]; cbn; lia.
Qed.

Lemma iter_shr_1_nonneg (p : positive) :
  forall mrs, 0 <= shr_m mrs -> 0 <= shr_m (iter_pos shr_1 p mrs).
Proof.
  induction p as [p IH | p IH |]; intros mrs H; cbn [iter_pos].
  - apply IH, IH, shr_1_nonneg, H.
  - apply IH, IH, H.
  - apply shr_1_nonneg, H.
Qed.

Lemma shr_fexp_nonneg (m e : Z) (l : location) :
  0 <= m -> 0 <= shr_m (fst (shr_fexp prec emax m e l)).
Proof.
  intro H. unfold shr_fexp, shr.
  assert (H0 : 0 <= shr_m (shr_record_of_loc m l)).
  { destruct l as [| []]; exact H. }
  destruct (fexp prec emax (Zdigits2 m + e) - e); cbn [fst]; auto.
  now apply iter_shr_1_nonneg.
Qed.

Lemma round_nearest_even_nonneg (m : Z) (l : location) :
  0 <= m -> 0 <= round_nearest_even m l.
Proof.
  intro H. destruct l as [| []]; cbn; try lia.
  destruct (Z.even m); lia.
Qed.

Lemma binary_round_aux_signed (sx : bool) (mx ex : Z) (lx : location) :
  0 <= mx -> signed sx (binary_round_aux prec emax sx mx ex lx).
Proof.
  intro H. unfold binary_round_aux.
  pose proof (shr_fexp_nonneg mx ex lx H) as H1.
  destruct (shr_fexp prec emax mx ex lx) as [mrs' e']. cbn [fst] in H1.
  pose proof (shr_fexp_nonneg _ e' loc_Exact
                (round_nearest_even_nonneg _ (loc_of_shr_record mrs') H1)) as H2.
  destruct (shr_fexp prec emax _ e' loc_Exact) as [mrs'' e'']. cbn [fst] in H2.
  cbv beta iota.
  destruct (shr_m mrs'') as [| p | p]; cbn [signed].
  - reflexivity.
  - destruct (e'' <=? emax - prec); reflexivity.
  - lia.
Qed.

Lemma SF64mul_signed (a : spec_float) (m : positive) (e : Z) :
  signed false a -> signed false (SF64mul a (S754_finite false m e)).
Proof.
  destruct a as [s | s | | s ma ea]; cbn [signed]; intro H; try contradiction;
    subst s; cbn [SF64mul SFmul xorb signed]; try reflexivity.
  apply binary_round_aux_signed. lia.
Qed.

End FloatFacts.

(** Multiplying by 1.0 is exact, and multiplying by -1.0 changes the sign. *)
Lemma one_mul (v : float) : 1.0 * v = v.
Proof.
  apply Prim2SF_inj. rewrite mul_spec.
  change (Prim2SF 1.0) with (S754_finite false 4503599627370496 (-52)).
  pose proof (Prim2SF_valid v) as Hv.
  destruct (Prim2SF v) as [s | s | | s m e]; try reflexivity.
  exact (SF64mul_unit false s m e Hv).
Qed.

Lemma neg_one_mul (v : float) : (-1.0) * v = - v.
Proof.
  apply Prim2SF_inj. rewrite mul_spec, opp_spec.
  change (Prim2SF (-1.0)) with (S754_finite true 4503599627370496 (-52)).
  pose proof (Prim2SF_valid v) as Hv.
  destruct (Prim2SF v) as [s | s | | s m e]; try reflexivity.
  exact (SF64mul_unit true s m e Hv).
Qed.

Lemma signed_nonneg (v : float) :
  signed false (Prim2SF v) -> (0.0 <=? v) = true /\ is_nan v = false.
Proof.
  unfold is_nan. rewrite leb_spec, eqb_spec.
  change (Prim2SF 0.0) with (S754_zero false).
  destruct (Prim2SF v) as [s | s | | s m e]; cbn [signed]; intro H;
    try contradiction; subst s; split; try reflexivity.
  now rewrite SFeqb_refl_finite.
Qed.

(** ** The speed and the velocity published *)

Lemma dispatch_speed_signed (key : string) (s : Teleop) :
  signed false (Prim2SF (speed s)) ->
  signed false (Prim2SF (speed (fst (dispatch key s)))).
Proof.
  intro Hs.
  dispatch_cases;
    cbn [fst speed set_x set_th set_speed set_motors]; try exact Hs;
    rewrite mul_spec.
  - change (Prim2SF 1.1) with (S754_finite false 4953959590107546 (-52)).
    now apply SF64mul_signed.
  - change (Prim2SF 0.9) with (S754_finite false 8106479329266893 (-53)).
    now apply SF64mul_signed.
Qed.

(** X11: in every state the node goes through the speed is a float that is
    neither negative nor a NaN (it may have grown to infinity): the speed
    never reverses the sign of the drive intent in the velocity published. *)
Theorem speed_never_negative (s : Teleop) :
  reachable s -> (0.0 <=? speed s) = true /\ is_nan (speed s) = false.
Proof.
  intro Hr. apply signed_nonneg.
  induction Hr as [now | s s' _ IH Hstep].
  - reflexivity.
  - destruct Hstep as [now key s | now s | s].
    + rewrite handle_key_eq. now apply dispatch_speed_signed.
    + rewrite timer_callback_node. now destruct (timed_out s now).
    + exact IH.
Qed.

Lemma speed_never_negative_witness :
  (0.0 <=? speed (fst (handle_keys [(1.0, "p"%string); (2.0, "O"%string)] (init 0.0))))
  = true
  /\ is_nan (speed (fst (handle_keys [(1.0, "p"%string); (2.0, "O"%string)] (init 0.0))))
     = false.
Proof.
  apply (speed_never_negative
           (fst (handle_keys [(1.0, "p"%string); (2.0, "O"%string)] (init 0.0)))).
  apply handle_keys_reachable, reach_init.
Defined.

(** X12: the velocity published while the watchdog has not fired, after an arrow
    key read at time [t] and on a tick at time [u] with [u - t > 5.0] false:
    Up publishes linear.x = speed, Down linear.x = -speed, Left
    angular.z = speed and Right angular.z = -speed, exactly; the other of the
    two fields is 0.0 * speed. *)
Theorem arrow_keys_publish (s : Teleop) (t u : float) :
  (TIMEOUT <? u - t) = false ->
  (vx (linear (fst (snd (timer_callback (fst (handle_key t KEY_UP s)) u)))) = speed s
   /\ vz (angular (fst (snd (timer_callback (fst (handle_key t KEY_UP s)) u))))
      = 0.0 * speed s)
  /\ (vx (linear (fst (snd (timer_callback (fst (handle_key t KEY_DOWN s)) u))))
      = - speed s
      /\ vz (angular (fst (snd (timer_callback (fst (handle_key t KEY_DOWN s)) u))))
         = 0.0 * speed s)
  /\ (vz (angular (fst (snd (timer_callback (fst (handle_key t KEY_LEFT s)) u))))
      = speed s
      /\ vx (linear (fst (snd (timer_callback (fst (handle_key t KEY_LEFT s)) u))))
         = 0.0 * speed s)
  /\ (vz (angular (fst (snd (timer_callback (fst (handle_key t KEY_RIGHT s)) u))))
      = - speed s
      /\ vx (linear (fst (snd (timer_callback (fst (handle_key t KEY_RIGHT s)) u))))
         = 0.0 * speed s).
Proof.
  intro Hin.
  unfold timer_callback, timed_out.
  cbn [handle_key fst last_keypress_time].
  change (last_keypress_time (fst (handle_key t KEY_UP s))) with t.
  change (last_keypress_time (fst (handle_key t KEY_DOWN s))) with t.
  change (last_keypress_time (fst (handle_key t KEY_LEFT s))) with t.
  change (last_keypress_time (fst (handle_key t KEY_RIGHT s))) with t.
  rewrite Hin. cbn.
  rewrite one_mul, neg_one_mul. repeat split; reflexivity.
Qed.

Lemma arrow_keys_publish_witness :
  vx (linear (fst (snd (timer_callback
        (fst (handle_key 10.0 KEY_UP (mkTeleop 0.5 [0; 0; 0; 0; 0; 0; 0]%Z 0.0 1.0 2.0)))
        15.0)))) = 0.5.
Proof.
  apply (arrow_keys_publish (mkTeleop 0.5 [0; 0; 0; 0; 0; 0; 0]%Z 0.0 1.0 2.0) 10.0 15.0).
  reflexivity.
Defined.

Lemma dispatch_speed_stuck (key : string) (s : Teleop) :
  speed s = infinity ->
  speed (fst (dispatch key s)) = infinity.
Proof.
  intro Hs.
  dispatch_cases;
    cbn [fst speed set_x set_th set_speed set_motors]; try exact Hs;
    rewrite Hs; reflexivity.
Qed.

(** X13: once the speed has overflowed to infinity, which enough presses of 'o'
    bring about, no sequence of keys changes it any more: 'p' does not bring
    it back. *)
Theorem speed_stuck (keys : list (float * string)) (s : Teleop) :
  speed s = infinity ->
  speed (fst (handle_keys keys s)) = infinity.
Proof.
  revert s. induction keys as [| [now key] rest IH]; intros s Hs.
  - exact Hs.
  - rewrite handle_keys_unfold.
    pose proof (dispatch_speed_stuck key (set_last_keypress_time now s) Hs) as Hk.
    rewrite <- handle_key_eq in Hk.
    destruct (handle_key now key s) as [s' [e | [|]]]; cbn [fst] in *;
      try exact Hk.
    now apply IH.
Qed.

Lemma speed_stuck_witness :
  speed (fst (handle_keys [(8.0, "p"%string); (9.0, "P"%string)] overflowed))
  = infinity.
Proof.
  apply (speed_stuck [(8.0, "p"%string); (9.0, "P"%string)] overflowed).
  vm_compute. reflexivity.
Defined.

(** ** The key decoder on a terminal whose reads can fail *)

(** On a stream that ends with the end of the file, the decoder is the one of
    the model without failures. *)
Lemma getKey_eof_agrees (settings : tty_mode) (w : World) :
  Tty.getKey settings (Tty.mkTerminal (stdin w) Tty.Eof (tty w))
  = Tty.Returns (fst (getKey settings w))
                (Tty.mkTerminal (stdin (snd (getKey settings w))) Tty.Eof settings).
Proof.
  rewrite getKey_key, getKey_world. cbn [stdin].
  unfold Tty.getKey, Tty.read.
  cbn [Tty.chars Tty.at_end Tty.attrs Tty.set_attrs Tty.set_chars].
  destruct (stdin w) as [| c rest]; [reflexivity |].
  cbn [String.length Nat.leb Py.take Py.drop String.eqb].
  destruct (Ascii.eqb c ESC) eqn:E.
  - apply Ascii.eqb_eq in E. subst c.
    destruct rest as [| c1 [| c2 rest]]; reflexivity.
  - reflexivity.
Qed.


Lemma getKey_by_cases (settings : tty_mode) (cs : string) (e : Tty.stream_end)
    (a : tty_mode) (key : string) (t' : Tty.Terminal) :
  Tty.getKey settings (Tty.mkTerminal cs e a) = Tty.Returns key t' ->
  key = EmptyString
  \/ (exists c, key = String c EmptyString)
  \/ (exists r, key = String ESC r).
Proof.
  unfold Tty.getKey, Tty.read.
  cbn [Tty.chars Tty.at_end Tty.attrs Tty.set_attrs Tty.set_chars].
  destruct cs as [| c rest].
  - destruct e as [| e |]; intro H; try discriminate H.
    injection H as <- _. now left.
  - cbn [String.length Nat.leb Py.take Py.drop String.eqb].
    destruct (Ascii.eqb c ESC) eqn:E.
    + apply Ascii.eqb_eq in E. subst c.
      destruct rest as [| c1 [| c2 rest]]; destruct e as [| e |];
        intro H; try discriminate H; injection H as <- _;
        right; right; eexists; reflexivity.
    + intro H. injection H as <- _. right. left. eexists. reflexivity.
Qed.

(** X8: whatever key [getKey] returns, on any stream and whatever its reads
    do at the end of it, the turn of the loop that handles the key on a node
    with seven motors raises exactly when the key is the empty string: no
    character typed makes the handler raise, and the handler never raises an
    [IndexError] on a key that was read. *)
Theorem returned_key_raises_only_empty (settings : tty_mode)
    (t t' : Tty.Terminal) (key : string) (now : float) (s : Teleop) :
  Tty.getKey settings t = Tty.Returns key t' ->
  List.length (motors s) = 7%nat ->
  raises (handle_key now key s) = (key =? "")%string.
Proof.
  intros Hkey Hlen. destruct t as [cs e a].
  rewrite handle_key_eq.
  destruct (getKey_by_cases settings cs e a key t' Hkey)
    as [-> | [(c & ->) | (r & ->)]].
  - reflexivity.
  - now apply dispatch_char_no_raise.
  - apply dispatch_esc_no_raise.
Qed.

Lemma returned_key_raises_only_empty_witness :
  raises (handle_key 1.0 (String ESC "[A") (init 0.0)) = false.
Proof.
  apply (returned_key_raises_only_empty Cooked
           (Tty.mkTerminal (String ESC "[A3") Tty.Waits Cooked)
           (Tty.mkTerminal "3" Tty.Waits Cooked)
           (String ESC "[A") 1.0 (init 0.0)); reflexivity.
Defined.

